(** * CLCLWebSocketZlib.h: the zlib shim of lcl-websocket

    The header defines three [static inline] C functions.  Two of them
    forward to zlib's [deflateInit2] and [inflateInit2] (macros in zlib.h,
    which a foreign-function binding cannot call), the third casts a [void *] to a
    [Bytef *].

    zlib itself is not part of the repository: it enters this development
    as a [platform], a record holding the two entry points and the memory
    of the C program.  Every statement below is quantified over all
    platforms.

    The functions are embedded twice.  [Shim] holds the shallow embedding:
    each C function is a Rocq function from its parameters to a program
    [prog], a tree of the effects a C function body can have (a call into
    zlib, a load, a store).  [Header] holds the text of the header as a
    small syntax tree together with an evaluator for that syntax; the
    evaluator, run on the syntax of each function, yields the shallow
    function. *)

From Stdlib Require Import ZArith List String Bool.
Import ListNotations.
#[local] Set Warnings "-register-all".
Local Open Scope Z_scope.

(* ================================================================== *)
(** ** C data *)

Module CTypes.

(** C [int].  The shim only moves ints around: no arithmetic is done on
    them, so no wrap-around is ever computed. *)
Definition int : Type := Z.

(** An address; 0 is the null pointer. *)
Definition address : Type := N.

Definition NULL : address := 0%N.

(** The types the header names. *)
Inductive ctype : Type :=
| Tint                      (* int *)
| Tvoid                     (* void *)
| TBytef                    (* Bytef, zlib's unsigned char *)
| Tz_stream                 (* z_stream, zlib's stream state *)
| Tpointer (t : ctype).     (* t * *)

(** A pointer is an address; the pointee type is static information. *)
Record pointer (pointee : ctype) : Type := Pointer { addr : address }.
Arguments Pointer {pointee} addr.
Arguments addr {pointee} p.

(** [typedef z_stream *z_streamp;] in zlib.h *)
Definition z_streamp : Type := pointer Tz_stream.

(** A C pointer cast between object pointer types: the address is kept,
    the static type changes. *)
Definition pointer_cast {from : ctype} (to : ctype) (p : pointer from)
  : pointer to :=
  Pointer (addr p).

End CTypes.
Export CTypes.

(* ================================================================== *)
(** ** Effects and programs *)

Module Effects.

(** What a function body of the header can do to the world outside it:
    call one of the two zlib entry points, or access memory. *)
Inductive effect : Type :=
| Ext_deflateInit2 (strm : z_streamp)
                   (level method windowBits memLevel strategy : int)
| Ext_inflateInit2 (strm : z_streamp) (windowBits : int)
| Mem_load (a : address)
| Mem_store (a : address) (b : Byte.byte).

(** What the world answers. *)
Definition response (e : effect) : Type :=
  match e with
  | Ext_deflateInit2 _ _ _ _ _ _ => int
  | Ext_inflateInit2 _ _ => int
  | Mem_load _ => Byte.byte
  | Mem_store _ _ => unit
  end.

(** A C computation returning an [A]: it returns, or it is stuck
    (undefined behaviour of the function's own making), or it has an
    effect and goes on with the answer. *)
Inductive prog (A : Type) : Type :=
| Ret (a : A)
| Stuck
| Vis (e : effect) (k : response e -> prog A).
Arguments Ret {A} a.
Arguments Stuck {A}.
Arguments Vis {A} e k.

Fixpoint bind {A B : Type} (p : prog A) (f : A -> prog B) : prog B :=
  match p with
  | Ret a => f a
  | Stuck => Stuck
  | Vis e k => Vis e (fun x => bind (k x) f)
  end.

(** One effect, its answer returned as it is. *)
Definition perform (e : effect) : prog (response e) := Vis e Ret.

Definition fmap {A B : Type} (f : A -> B) (p : prog A) : prog B :=
  bind p (fun a => Ret (f a)).

(** A program that starts with an effect has one; the others have
    none. *)
Definition effect_free {A : Type} (p : prog A) : bool :=
  match p with
  | Ret _ => true
  | Stuck => true
  | Vis _ _ => false
  end.

End Effects.
Export Effects.

Declare Scope prog_scope.
Delimit Scope prog_scope with prog.
Notation "x <- p ;; q" := (bind p (fun x => q))
  (at level 61, p at next level, right associativity) : prog_scope.

(* ================================================================== *)
(** ** The platform: zlib and memory *)

Module Platform.

(** How a call or a computation ends: normally, with a value and the
    next world, or by a fault (a crash: the callee had undefined
    behaviour, say on a dangling stream handle). *)
Inductive outcome (W A : Type) : Type :=
| Normal (a : A) (w : W)
| Fault.
Arguments Normal {W A} a w.
Arguments Fault {W A}.

Definition return_value {W A : Type} (o : outcome W A) : option A :=
  match o with
  | Normal a _ => Some a
  | Fault => None
  end.

Definition final_world {W A : Type} (o : outcome W A) : option W :=
  match o with
  | Normal _ w => Some w
  | Fault => None
  end.

(** Everything the header is compiled against.  [world] is the whole
    state outside the shim: the memory, with the [z_stream] objects in
    it, and zlib's own state.  [deflateInit2] and [inflateInit2] are
    zlib's entry points of those names; [stream_at] reads the stream a
    handle points to.  Nothing is assumed of any of them. *)
Record platform : Type := {
  world : Type;
  z_stream : Type;
  stream_at : z_streamp -> world -> option z_stream;
  deflateInit2 :
    z_streamp -> int -> int -> int -> int -> int ->
    world -> outcome world int;
  inflateInit2 : z_streamp -> int -> world -> outcome world int;
  mem_load : address -> world -> outcome world Byte.byte;
  mem_store : address -> Byte.byte -> world -> outcome world unit;
}.

(** The platform's answer to one effect. *)
Definition handle (P : platform) (e : effect)
  : world P -> outcome (world P) (response e) :=
  match e with
  | Ext_deflateInit2 strm level method windowBits memLevel strategy =>
      deflateInit2 P strm level method windowBits memLevel strategy
  | Ext_inflateInit2 strm windowBits => inflateInit2 P strm windowBits
  | Mem_load a => mem_load P a
  | Mem_store a b => mem_store P a b
  end.

(** Running a program on a platform. *)
Fixpoint run {A : Type} (P : platform) (p : prog A) (w : world P)
  : outcome (world P) A :=
  match p with
  | Ret a => Normal a w
  | Stuck => Fault
  | Vis e k =>
      match handle P e w with
      | Normal x w' => run P (k x) w'
      | Fault => Fault
      end
  end.

(** The same run, keeping a log: each effect the program had, with the
    world it was issued in. *)
Fixpoint journal {A : Type} (P : platform) (p : prog A) (w : world P)
  : list (world P * effect) :=
  match p with
  | Ret _ => []
  | Stuck => []
  | Vis e k =>
      (w, e) ::
      match handle P e w with
      | Normal x w' => journal P (k x) w'
      | Fault => []
      end
  end.

Definition trace {A : Type} (P : platform) (p : prog A) (w : world P)
  : list effect :=
  map snd (journal P p w).

(** The stream behind a handle once a computation has ended. *)
Definition stream_after {A : Type} (P : platform) (strm : z_streamp)
                        (o : outcome (world P) A) : option (z_stream P) :=
  match o with
  | Normal _ w => stream_at P strm w
  | Fault => None
  end.

End Platform.
Export Platform.

(* ================================================================== *)
(** ** The three functions of the header *)

Module Shim.

Local Open Scope prog_scope.

(** [[
    static inline int CLCLWebSocketZlib_deflateInit2(z_streamp strm,
                                                     int level,
                                                     int method,
                                                     int windowBits,
                                                     int memLevel,
                                                     int strategy) {
           return deflateInit2(strm, level, method, windowBits, memLevel, strategy);
    }
    ]] *)
Definition CLCLWebSocketZlib_deflateInit2
           (strm : z_streamp)
           (level : int)
           (method : int)
           (windowBits : int)
           (memLevel : int)
           (strategy : int) : prog int :=
  perform (Ext_deflateInit2 strm level method windowBits memLevel strategy).

(** [[
    static inline int CLCLWebSocketZlib_inflateInit2(z_streamp strm, int windowBits) {
        return inflateInit2(strm, windowBits);
    }
    ]] *)
Definition CLCLWebSocketZlib_inflateInit2
           (strm : z_streamp) (windowBits : int) : prog int :=
  perform (Ext_inflateInit2 strm windowBits).

(** [[
    static inline Bytef *CLCLWebSocketZlib_voidPtr_to_BytefPtr(void *in) {
        return (Bytef * )in;
    }
    ]] *)
Definition CLCLWebSocketZlib_voidPtr_to_BytefPtr
           (in_ : pointer Tvoid) : prog (pointer TBytef) :=
  Ret (pointer_cast TBytef in_).

End Shim.
Export Shim.

(* ================================================================== *)
(** ** Calling zlib without the shim *)

Module Direct.

(** The caller that needs no shim (a C caller) writes
    [deflateInit2(strm, level, method, windowBits, memLevel, strategy)]
    itself: the platform's entry point applied to the arguments. *)
Definition direct_deflateInit2 (P : platform)
           (strm : z_streamp)
           (level method windowBits memLevel strategy : int)
           (w : world P) : outcome (world P) int :=
  deflateInit2 P strm level method windowBits memLevel strategy w.

(** Likewise [inflateInit2(strm, windowBits)]. *)
Definition direct_inflateInit2 (P : platform)
           (strm : z_streamp) (windowBits : int)
           (w : world P) : outcome (world P) int :=
  inflateInit2 P strm windowBits w.

(** The cast written the other way round, [(void * )p]. *)
Definition BytefPtr_to_voidPtr (p : pointer TBytef) : pointer Tvoid :=
  pointer_cast Tvoid p.

End Direct.
Export Direct.

(* ================================================================== *)
(** ** Platforms that may answer in more than one way *)

Module Relational.

(** A platform whose answers are relations: a call may have several
    possible outcomes in one world (or none). *)
Record rplatform : Type := {
  rworld : Type;
  r_deflateInit2 :
    z_streamp -> int -> int -> int -> int -> int ->
    rworld -> outcome rworld int -> Prop;
  r_inflateInit2 : z_streamp -> int -> rworld -> outcome rworld int -> Prop;
  r_load : address -> rworld -> outcome rworld Byte.byte -> Prop;
  r_store : address -> Byte.byte -> rworld -> outcome rworld unit -> Prop;
}.

Definition answers (R : rplatform) (e : effect)
  : rworld R -> outcome (rworld R) (response e) -> Prop :=
  match e with
  | Ext_deflateInit2 strm level method windowBits memLevel strategy =>
      r_deflateInit2 R strm level method windowBits memLevel strategy
  | Ext_inflateInit2 strm windowBits => r_inflateInit2 R strm windowBits
  | Mem_load a => r_load R a
  | Mem_store a b => r_store R a b
  end.

(** [exec R p w o]: on [R], from world [w], the program [p] can end
    as [o]. *)
Fixpoint exec {A : Type} (R : rplatform) (p : prog A) (w : rworld R)
              (o : outcome (rworld R) A) : Prop :=
  match p with
  | Ret a => o = Normal a w
  | Stuck => o = Fault
  | Vis e k =>
      (answers R e w Fault /\ o = Fault) \/
      (exists x w', answers R e w (Normal x w') /\ exec R (k x) w' o)
  end.

(** The platform answers each effect in at most one way. *)
Definition deterministic (R : rplatform) : Prop :=
  forall (e : effect) (w : rworld R) (o1 o2 : outcome (rworld R) (response e)),
    answers R e w o1 -> answers R e w o2 -> o1 = o2.

(** A platform of functions, seen as one of relations. *)
Definition graph (P : platform) : rplatform := {|
  rworld := world P;
  r_deflateInit2 := fun strm level method windowBits memLevel strategy w o =>
    deflateInit2 P strm level method windowBits memLevel strategy w = o;
  r_inflateInit2 := fun strm windowBits w o =>
    inflateInit2 P strm windowBits w = o;
  r_load := fun a w o => mem_load P a w = o;
  r_store := fun a b w o => mem_store P a b w = o;
|}.

End Relational.
Export Relational.

(* ================================================================== *)
(** ** The text of the header *)

Module Header.

Local Open Scope string_scope.
Local Open Scope prog_scope.

Definition ident : Type := string.

(** Run-time values of the fragment. *)
Inductive value : Type :=
| Vint (z : int)
| Vptr (a : address).

(** The C fragment: enough for the header, and for what the header
    could have done and does not (a test, a dereference, a store, a
    second statement). *)
Inductive expr : Type :=
| Evar (x : ident)                          (* x *)
| Ecast (t : ctype) (e : expr)              (* (t)e *)
| Ederef (e : expr)                         (* *e, e a Bytef * *)
| Ecall (callee : ident) (args : list expr). (* callee(args) *)

Inductive stmt : Type :=
| Sskip                                     (* ; *)
| Sexpr (e : expr)                          (* e; *)
| Sstore (lhs rhs : expr)                   (* *lhs = rhs; *)
| Sreturn (e : expr)                        (* return e; *)
| Sseq (s1 s2 : stmt)                       (* s1 s2 *)
| Sif (e : expr) (s1 s2 : stmt).            (* if (e) s1 else s2 *)

Inductive specifier : Type := Static | Inline.

Record fundef : Type := {
  fn_specifiers : list specifier;
  fn_return : ctype;
  fn_name : ident;
  fn_params : list (ctype * ident);
  fn_body : stmt;
}.

(** What a file can define at file scope: a function, or an object
    (a variable: state of the file's own). *)
Inductive declaration : Type :=
| Dfunction (f : fundef)
| Dobject (t : ctype) (x : ident).

(** *** Evaluation *)

Definition env : Type := list (ident * value).

Fixpoint lookup (x : ident) (rho : env) : option value :=
  match rho with
  | [] => None
  | (y, v) :: rho' => if String.eqb x y then Some v else lookup x rho'
  end.

Definition has_type (v : value) (t : ctype) : bool :=
  match v, t with
  | Vint _, Tint => true
  | Vptr _, Tpointer _ => true
  | _, _ => false
  end.

(** A cast keeps an int an int and a pointer's address; the fragment
    has no cast between ints and pointers. *)
Definition cast_value (t : ctype) (v : value) : prog value :=
  match t, v with
  | Tint, Vint z => Ret (Vint z)
  | Tpointer _, Vptr a => Ret (Vptr a)
  | _, _ => Stuck
  end.

(** The functions zlib.h brings into scope, as far as the header uses
    them; the arguments must have the types of the entry point. *)
Definition call_external (callee : ident) (vs : list value) : prog value :=
  if String.eqb callee "deflateInit2" then
    match vs with
    | [Vptr strm; Vint level; Vint method; Vint windowBits;
       Vint memLevel; Vint strategy] =>
        fmap Vint
          (perform (Ext_deflateInit2 (Pointer strm) level method
                                     windowBits memLevel strategy))
    | _ => Stuck
    end
  else if String.eqb callee "inflateInit2" then
    match vs with
    | [Vptr strm; Vint windowBits] =>
        fmap Vint (perform (Ext_inflateInit2 (Pointer strm) windowBits))
    | _ => Stuck
    end
  else Stuck.

Definition byte_value (b : Byte.byte) : value :=
  Vint (Z.of_N (Byte.to_N b)).

Definition value_byte (v : value) : option Byte.byte :=
  match v with
  | Vint z =>
      if ((0 <=? z) && (z <? 256))%Z then Byte.of_N (Z.to_N z) else None
  | Vptr _ => None
  end.

Definition truthy (v : value) : bool :=
  match v with
  | Vint z => negb (z =? 0)%Z
  | Vptr a => negb (a =? NULL)%N
  end.

Fixpoint eval_expr (rho : env) (e : expr) : prog value :=
  match e with
  | Evar x =>
      match lookup x rho with
      | Some v => Ret v
      | None => Stuck
      end
  | Ecast t a => v <- eval_expr rho a ;; cast_value t v
  | Ederef a =>
      v <- eval_expr rho a ;;
      match v with
      | Vptr p => fmap byte_value (perform (Mem_load p))
      | Vint _ => Stuck
      end
  | Ecall callee args =>
      vs <- (fix eval_args (l : list expr) : prog (list value) :=
               match l with
               | [] => Ret []
               | a :: l' =>
                   v <- eval_expr rho a ;;
                   vs <- eval_args l' ;;
                   Ret (v :: vs)
               end) args ;;
      call_external callee vs
  end.

(** How a statement ends: control goes on, or the function returns. *)
Inductive completion : Type :=
| Cnormal
| Creturn (v : value).

Fixpoint exec_stmt (rho : env) (s : stmt) : prog completion :=
  match s with
  | Sskip => Ret Cnormal
  | Sexpr e => _ <- eval_expr rho e ;; Ret Cnormal
  | Sstore lhs rhs =>
      l <- eval_expr rho lhs ;;
      r <- eval_expr rho rhs ;;
      match l, value_byte r with
      | Vptr p, Some b => _ <- perform (Mem_store p b) ;; Ret Cnormal
      | _, _ => Stuck
      end
  | Sreturn e => v <- eval_expr rho e ;; Ret (Creturn v)
  | Sseq s1 s2 =>
      c <- exec_stmt rho s1 ;;
      match c with
      | Cnormal => exec_stmt rho s2
      | Creturn v => Ret (Creturn v)
      end
  | Sif e s1 s2 =>
      v <- eval_expr rho e ;;
      if truthy v then exec_stmt rho s1 else exec_stmt rho s2
  end.

Fixpoint bind_params (ps : list (ctype * ident)) (vs : list value)
  : option env :=
  match ps, vs with
  | [], [] => Some []
  | (t, x) :: ps', v :: vs' =>
      if has_type v t
      then option_map (cons (x, v)) (bind_params ps' vs')
      else None
  | _, _ => None
  end.

(** A call of a function of the file: the parameters are bound to the
    arguments, the body runs, and it must return a value of the return
    type. *)
Definition call_fundef (f : fundef) (vs : list value) : prog value :=
  match bind_params (fn_params f) vs with
  | None => Stuck
  | Some rho =>
      c <- exec_stmt rho (fn_body f) ;;
      match c with
      | Creturn v => if has_type v (fn_return f) then Ret v else Stuck
      | Cnormal => Stuck
      end
  end.

(** *** The three definitions, as written *)

Definition def_deflateInit2 : fundef := {|
  fn_specifiers := [Static; Inline];
  fn_return := Tint;
  fn_name := "CLCLWebSocketZlib_deflateInit2";
  fn_params := [(Tpointer Tz_stream, "strm");
                (Tint, "level");
                (Tint, "method");
                (Tint, "windowBits");
                (Tint, "memLevel");
                (Tint, "strategy")];
  fn_body :=
    Sreturn (Ecall "deflateInit2"
                   [Evar "strm"; Evar "level"; Evar "method";
                    Evar "windowBits"; Evar "memLevel"; Evar "strategy"]);
|}.

Definition def_inflateInit2 : fundef := {|
  fn_specifiers := [Static; Inline];
  fn_return := Tint;
  fn_name := "CLCLWebSocketZlib_inflateInit2";
  fn_params := [(Tpointer Tz_stream, "strm"); (Tint, "windowBits")];
  fn_body :=
    Sreturn (Ecall "inflateInit2" [Evar "strm"; Evar "windowBits"]);
|}.

Definition def_voidPtr_to_BytefPtr : fundef := {|
  fn_specifiers := [Static; Inline];
  fn_return := Tpointer TBytef;
  fn_name := "CLCLWebSocketZlib_voidPtr_to_BytefPtr";
  fn_params := [(Tpointer Tvoid, "in")];
  fn_body := Sreturn (Ecast (Tpointer TBytef) (Evar "in"));
|}.

(** Everything between [#include <zlib.h>] and [#endif]. *)
Definition header : list declaration :=
  [Dfunction def_deflateInit2;
   Dfunction def_inflateInit2;
   Dfunction def_voidPtr_to_BytefPtr].

(** *** Reading the syntax *)

Definition functions (ds : list declaration) : list fundef :=
  flat_map (fun d => match d with
                     | Dfunction f => [f]
                     | Dobject _ _ => []
                     end) ds.

Definition objects (ds : list declaration) : list ident :=
  flat_map (fun d => match d with
                     | Dfunction _ => []
                     | Dobject _ x => [x]
                     end) ds.

Definition is_inline (f : fundef) : bool :=
  existsb (fun s => match s with Inline => true | Static => false end)
          (fn_specifiers f).

Definition parameters (f : fundef) : list expr :=
  map (fun p => Evar (snd p)) (fn_params f).

(** The shape of a body. *)
Inductive body_shape : Type :=
| Forwards (callee : ident) (args : list expr)  (* return callee(args); *)
| Casts (t : ctype) (e : expr)                  (* return (t)e; *)
| Other.

Definition shape (s : stmt) : body_shape :=
  match s with
  | Sreturn (Ecall callee args) => Forwards callee args
  | Sreturn (Ecast t e) => Casts t e
  | _ => Other
  end.

Local Open Scope nat_scope.

(** The number of statements, tests, dereferences and stores in a
    body. *)
Fixpoint statements (s : stmt) : nat :=
  match s with
  | Sskip => 0
  | Sexpr _ | Sstore _ _ | Sreturn _ => 1
  | Sseq s1 s2 => statements s1 + statements s2
  | Sif _ s1 s2 => 1 + statements s1 + statements s2
  end.

Fixpoint expr_derefs (e : expr) : nat :=
  match e with
  | Evar _ => 0
  | Ecast _ a => expr_derefs a
  | Ederef a => 1 + expr_derefs a
  | Ecall _ args =>
      (fix go (l : list expr) : nat :=
         match l with
         | [] => 0
         | a :: l' => expr_derefs a + go l'
         end) args
  end.

Fixpoint memory_accesses (s : stmt) : nat :=
  match s with
  | Sskip => 0
  | Sexpr e | Sreturn e => expr_derefs e
  | Sstore lhs rhs => 1 + expr_derefs lhs + expr_derefs rhs
  | Sseq s1 s2 => memory_accesses s1 + memory_accesses s2
  | Sif e s1 s2 => expr_derefs e + memory_accesses s1 + memory_accesses s2
  end.

Fixpoint tests (s : stmt) : nat :=
  match s with
  | Sskip | Sexpr _ | Sstore _ _ | Sreturn _ => 0
  | Sseq s1 s2 => tests s1 + tests s2
  | Sif _ s1 s2 => 1 + tests s1 + tests s2
  end.

End Header.
Export Header.

(* ================================================================== *)
(** ** A platform to run on *)

Module Sample.

(** A stand-in for zlib, small enough to compute with.  It is not zlib:
    it records what it was initialised with, refuses the null handle
    with an error status, and crashes on a handle that is not aligned
    on a word.  No byte of its memory is accessible to the program. *)
Inductive sample_stream : Type :=
| Deflating (level method windowBits memLevel strategy : int)
| Inflating (windowBits : int).

Definition sample_world : Type := list (address * sample_stream).

Fixpoint sample_find (a : address) (w : sample_world)
  : option sample_stream :=
  match w with
  | [] => None
  | (b, s) :: w' => if (a =? b)%N then Some s else sample_find a w'
  end.

Definition sample_ok : int := 0.
Definition sample_error : int := -2.

Definition sample_init (strm : z_streamp) (s : sample_stream)
                       (w : sample_world) : outcome sample_world int :=
  if (addr strm =? NULL)%N then Normal sample_error w
  else if (addr strm mod 8 =? 0)%N then Normal sample_ok ((addr strm, s) :: w)
  else Fault.

Definition sample : platform := {|
  world := sample_world;
  z_stream := sample_stream;
  stream_at := fun strm w => sample_find (addr strm) w;
  deflateInit2 := fun strm level method windowBits memLevel strategy =>
    sample_init strm (Deflating level method windowBits memLevel strategy);
  inflateInit2 := fun strm windowBits =>
    sample_init strm (Inflating windowBits);
  mem_load := fun _ _ => Fault;
  mem_store := fun _ _ _ => Fault;
|}.

End Sample.
Export Sample.

(* ================================================================== *)
(** ** Callers of the header *)

Module Client.

Local Open Scope prog_scope.

(** Any caller of the header: a program that, besides effects of its own
    (memory accesses, calls into zlib it makes itself), calls the three
    functions of the header, and goes on from each result as it
    likes. *)
Inductive client (A : Type) : Type :=
| Done (a : A)
| Abort
| Own (e : effect) (k : response e -> client A)
| Call_deflateInit2 (strm : z_streamp)
                    (level method windowBits memLevel strategy : int)
                    (k : int -> client A)
| Call_inflateInit2 (strm : z_streamp) (windowBits : int)
                    (k : int -> client A)
| Call_voidPtr_to_BytefPtr (in_ : pointer Tvoid)
                           (k : pointer TBytef -> client A).
Arguments Done {A} a.
Arguments Abort {A}.
Arguments Own {A} e k.
Arguments Call_deflateInit2 {A} strm level method windowBits memLevel strategy k.
Arguments Call_inflateInit2 {A} strm windowBits k.
Arguments Call_voidPtr_to_BytefPtr {A} in_ k.

(** The caller compiled against the header: each call runs the body of
    the function of the header. *)
Fixpoint through_shim {A : Type} (c : client A) : prog A :=
  match c with
  | Done a => Ret a
  | Abort => Stuck
  | Own e k => Vis e (fun x => through_shim (k x))
  | Call_deflateInit2 strm level method windowBits memLevel strategy k =>
      status <- CLCLWebSocketZlib_deflateInit2
                  strm level method windowBits memLevel strategy ;;
      through_shim (k status)
  | Call_inflateInit2 strm windowBits k =>
      status <- CLCLWebSocketZlib_inflateInit2 strm windowBits ;;
      through_shim (k status)
  | Call_voidPtr_to_BytefPtr in_ k =>
      q <- CLCLWebSocketZlib_voidPtr_to_BytefPtr in_ ;;
      through_shim (k q)
  end.

(** The same caller written without the header: it calls zlib's entry
    points itself and writes the cast in place. *)
Fixpoint without_shim {A : Type} (c : client A) : prog A :=
  match c with
  | Done a => Ret a
  | Abort => Stuck
  | Own e k => Vis e (fun x => without_shim (k x))
  | Call_deflateInit2 strm level method windowBits memLevel strategy k =>
      Vis (Ext_deflateInit2 strm level method windowBits memLevel strategy)
          (fun status => without_shim (k status))
  | Call_inflateInit2 strm windowBits k =>
      Vis (Ext_inflateInit2 strm windowBits)
          (fun status => without_shim (k status))
  | Call_voidPtr_to_BytefPtr in_ k =>
      without_shim (k (pointer_cast TBytef in_))
  end.

(** A caller that sets up a compressor and a decompressor, in this
    order, and gives up on the first status that is not zero. *)
Definition init_both (deflater inflater : z_streamp)
                     (level method windowBits memLevel strategy : int)
  : client int :=
  Call_deflateInit2 deflater level method windowBits memLevel strategy
    (fun status =>
       if (status =? 0)%Z
       then Call_inflateInit2 inflater windowBits Done
       else Done status).

End Client.
Export Client.

(* ================================================================== *)
(** ** Programs and platforms: general facts *)

Section RunFacts.

Variable P : platform.

Lemma run_perform (e : effect) (w : world P) :
  run P (perform e) w = handle P e w.
Proof.
  unfold perform; simpl.
  destruct (handle P e w); reflexivity.
Qed.

Lemma journal_perform (e : effect) (w : world P) :
  journal P (perform e) w = [(w, e)].
Proof.
  unfold perform; simpl.
  destruct (handle P e w); reflexivity.
Qed.

Lemma run_bind {A B : Type} (p : prog A) (f : A -> prog B) (w : world P) :
  run P (bind p f) w =
  match run P p w with
  | Normal a w' => run P (f a) w'
  | Fault => Fault
  end.
Proof.
  revert w.
  induction p as [a | | e k IH]; intros w; simpl; try reflexivity.
  destruct (handle P e w) as [x w' | ]; [apply IH | reflexivity].
Qed.

Lemma run_fmap {A B : Type} (f : A -> B) (p : prog A) (w : world P) :
  run P (fmap f p) w =
  match run P p w with
  | Normal a w' => Normal (f a) w'
  | Fault => Fault
  end.
Proof.
  unfold fmap. rewrite run_bind. reflexivity.
Qed.

Lemma journal_fmap {A B : Type} (f : A -> B) (p : prog A) (w : world P) :
  journal P (fmap f p) w = journal P p w.
Proof.
  revert w.
  induction p as [a | | e k IH]; intros w; simpl; try reflexivity.
  f_equal.
  destruct (handle P e w) as [x w' | ]; [apply IH | reflexivity].
Qed.

(** A run on a platform of functions is the one execution on its
    graph. *)
Lemma exec_graph_run {A : Type} (p : prog A) (w : world P)
      (o : outcome (world P) A) :
  exec (graph P) p w o <-> run P p w = o.
Proof.
  revert w.
  induction p as [a | | e k IH]; intros w; simpl.
  - split; congruence.
  - split; congruence.
  - assert (Hans : forall o', answers (graph P) e w o' <-> handle P e w = o')
      by (intros o'; destruct e; simpl; tauto).
    split.
    + intros [[Hf Ho] | (x & w' & Hn & Hk)].
      * apply Hans in Hf. rewrite Hf. congruence.
      * apply Hans in Hn. rewrite Hn. apply IH. exact Hk.
    + intros Hrun.
      destruct (handle P e w) as [x w' | ] eqn:Hh.
      * right. exists x, w'. split; [apply Hans; reflexivity | apply IH; exact Hrun].
      * left. split; [apply Hans; reflexivity | congruence].
Qed.

End RunFacts.

Section ExecFacts.

Variable R : rplatform.

Lemma exec_perform (e : effect) (w : rworld R)
      (o : outcome (rworld R) (response e)) :
  exec R (perform e) w o <-> answers R e w o.
Proof.
  unfold perform; simpl. split.
  - intros [[Hf Ho] | (x & w' & Hn & Hk)]; subst; assumption.
  - intros Ha. destruct o as [x w' | ].
    + right. exists x, w'. split; [exact Ha | reflexivity].
    + left. split; [exact Ha | reflexivity].
Qed.

(** On a deterministic platform every program has at most one
    outcome. *)
Lemma exec_deterministic {A : Type} (Hdet : deterministic R) (p : prog A) :
  forall (w : rworld R) (o1 o2 : outcome (rworld R) A),
    exec R p w o1 -> exec R p w o2 -> o1 = o2.
Proof.
  induction p as [a | | e k IH]; intros w o1 o2; simpl.
  - congruence.
  - congruence.
  - intros [[Hf1 Ho1] | (x1 & w1 & Hn1 & Hk1)]
           [[Hf2 Ho2] | (x2 & w2 & Hn2 & Hk2)].
    + congruence.
    + pose proof (Hdet e w _ _ Hf1 Hn2) as Heq. discriminate Heq.
    + pose proof (Hdet e w _ _ Hn1 Hf2) as Heq. discriminate Heq.
    + pose proof (Hdet e w _ _ Hn1 Hn2) as Heq.
      injection Heq as Hx Hw. subst x2 w2.
      exact (IH x1 w1 o1 o2 Hk1 Hk2).
Qed.

End ExecFacts.

Lemma graph_deterministic (P : platform) : deterministic (graph P).
Proof.
  intros e w o1 o2 H1 H2.
  destruct e; simpl in H1, H2; congruence.
Qed.

(* ================================================================== *)
(** ** Running the two wrappers *)

Section WrapperRuns.

Variables (P : platform) (w : world P).
Variables (strm : z_streamp) (level method windowBits memLevel strategy : int).

Lemma run_deflateInit2 :
  run P (CLCLWebSocketZlib_deflateInit2
           strm level method windowBits memLevel strategy) w
  = deflateInit2 P strm level method windowBits memLevel strategy w.
Proof.
  exact (run_perform P (Ext_deflateInit2 strm level method windowBits
                                         memLevel strategy) w).
Qed.

Lemma journal_deflateInit2 :
  journal P (CLCLWebSocketZlib_deflateInit2
               strm level method windowBits memLevel strategy) w
  = [(w, Ext_deflateInit2 strm level method windowBits memLevel strategy)].
Proof.
  exact (journal_perform P (Ext_deflateInit2 strm level method windowBits
                                             memLevel strategy) w).
Qed.

Lemma run_inflateInit2 :
  run P (CLCLWebSocketZlib_inflateInit2 strm windowBits) w
  = inflateInit2 P strm windowBits w.
Proof.
  exact (run_perform P (Ext_inflateInit2 strm windowBits) w).
Qed.

Lemma journal_inflateInit2 :
  journal P (CLCLWebSocketZlib_inflateInit2 strm windowBits) w
  = [(w, Ext_inflateInit2 strm windowBits)].
Proof.
  exact (journal_perform P (Ext_inflateInit2 strm windowBits) w).
Qed.

End WrapperRuns.

(* ================================================================== *)
(** ** The syntax of the header means the shallow functions *)

Section Denotation.

Variables (strm : z_streamp) (level method windowBits memLevel strategy : int).

Lemma call_def_deflateInit2 :
  call_fundef def_deflateInit2
              [Vptr (addr strm); Vint level; Vint method; Vint windowBits;
               Vint memLevel; Vint strategy]
  = fmap Vint (CLCLWebSocketZlib_deflateInit2
                 strm level method windowBits memLevel strategy).
Proof.
  destruct strm as [a]. reflexivity.
Qed.

Lemma call_def_inflateInit2 :
  call_fundef def_inflateInit2 [Vptr (addr strm); Vint windowBits]
  = fmap Vint (CLCLWebSocketZlib_inflateInit2 strm windowBits).
Proof.
  destruct strm as [a]. reflexivity.
Qed.

Lemma call_def_voidPtr_to_BytefPtr (in_ : pointer Tvoid) :
  call_fundef def_voidPtr_to_BytefPtr [Vptr (addr in_)]
  = fmap (fun q => Vptr (addr q)) (CLCLWebSocketZlib_voidPtr_to_BytefPtr in_).
Proof.
  reflexivity.
Qed.

(** Run from the text, a wrapper ends as the forwarded call does and has
    the same journal as the shallow function. *)
Lemma run_call_def_deflateInit2 (P : platform) (w : world P) :
  run P (call_fundef def_deflateInit2
                     [Vptr (addr strm); Vint level; Vint method;
                      Vint windowBits; Vint memLevel; Vint strategy]) w
  = match deflateInit2 P strm level method windowBits memLevel strategy w with
    | Normal status w' => Normal (Vint status) w'
    | Fault => Fault
    end
  /\ journal P (call_fundef def_deflateInit2
                            [Vptr (addr strm); Vint level; Vint method;
                             Vint windowBits; Vint memLevel; Vint strategy]) w
     = [(w, Ext_deflateInit2 strm level method windowBits memLevel strategy)].
Proof.
  rewrite call_def_deflateInit2, run_fmap, journal_fmap.
  rewrite run_deflateInit2, journal_deflateInit2.
  split; reflexivity.
Qed.

Lemma run_call_def_inflateInit2 (P : platform) (w : world P) :
  run P (call_fundef def_inflateInit2 [Vptr (addr strm); Vint windowBits]) w
  = match inflateInit2 P strm windowBits w with
    | Normal status w' => Normal (Vint status) w'
    | Fault => Fault
    end
  /\ journal P (call_fundef def_inflateInit2
                            [Vptr (addr strm); Vint windowBits]) w
     = [(w, Ext_inflateInit2 strm windowBits)].
Proof.
  rewrite call_def_inflateInit2, run_fmap, journal_fmap.
  rewrite run_inflateInit2, journal_inflateInit2.
  split; reflexivity.
Qed.

End Denotation.

(* ================================================================== *)
(** ** The functions on the sample platform *)

Example sample_deflateInit2_ok :
  run sample (CLCLWebSocketZlib_deflateInit2 (Pointer 64%N) 6 8 (-15) 8 0) []
  = Normal 0 [(64%N, Deflating 6 8 (-15) 8 0)].
Proof. reflexivity. Qed.

Example sample_deflateInit2_null :
  run sample (CLCLWebSocketZlib_deflateInit2 (Pointer NULL) 6 8 (-15) 8 0) []
  = Normal (-2) [].
Proof. reflexivity. Qed.

Example sample_deflateInit2_misaligned :
  run sample (CLCLWebSocketZlib_deflateInit2 (Pointer 3%N) 6 8 (-15) 8 0) []
  = Fault.
Proof. reflexivity. Qed.

Example sample_deflateInit2_order_matters :
  run sample (CLCLWebSocketZlib_deflateInit2 (Pointer 64%N) 6 8 (-15) 8 0) []
  <> run sample (CLCLWebSocketZlib_deflateInit2 (Pointer 64%N) 8 6 (-15) 8 0) [].
Proof. discriminate. Qed.

Example sample_inflateInit2_ok :
  run sample (CLCLWebSocketZlib_inflateInit2 (Pointer 128%N) (-15))
      [(64%N, Deflating 6 8 (-15) 8 0)]
  = Normal 0 [(128%N, Inflating (-15)); (64%N, Deflating 6 8 (-15) 8 0)].
Proof. reflexivity. Qed.

Example sample_header_deflateInit2 :
  run sample
      (call_fundef def_deflateInit2
                   [Vptr 64%N; Vint 6; Vint 8; Vint (-15); Vint 8; Vint 0]) []
  = Normal (Vint 0) [(64%N, Deflating 6 8 (-15) 8 0)].
Proof. reflexivity. Qed.

Example sample_header_ill_typed_call :
  call_fundef def_inflateInit2 [Vint 7; Vint (-15)] = Stuck.
Proof. reflexivity. Qed.

Example sample_voidPtr_to_BytefPtr_dangling :
  run sample (CLCLWebSocketZlib_voidPtr_to_BytefPtr (Pointer 3%N)) []
  = Normal (Pointer 3%N) []
  /\ run sample (perform (Mem_load 3%N)) [] = Fault.
Proof. split; reflexivity. Qed.

(** What the evaluator does with a body that is not a plain forward: a
    null check in front of the call shows up as a different program. *)
Example sample_checked_variant_differs :
  let checked :=
    {| fn_specifiers := [Static; Inline];
       fn_return := Tint;
       fn_name := "checked_inflateInit2"%string;
       fn_params := [(Tpointer Tz_stream, "strm"%string);
                     (Tint, "windowBits"%string)];
       fn_body :=
         (Sif (Evar "strm")
              (Sreturn (Ecall "inflateInit2"
                              [Evar "strm"; Evar "windowBits"]))
              (Sreturn (Evar "windowBits")))%string |} in
  tests (fn_body checked) = 1%nat
  /\ trace sample (call_fundef checked [Vptr NULL; Vint 9]) [] = []
  /\ run sample (call_fundef checked [Vptr NULL; Vint 9]) []
     = Normal (Vint 9) []
  /\ run sample (call_fundef def_inflateInit2 [Vptr NULL; Vint 9]) []
     = Normal (Vint (-2)) [].
Proof. repeat split; reflexivity. Qed.

(* ================================================================== *)
(** ** Pass-through *)

(** C1.  On every platform, in every world and for every argument tuple
    (the valid ones among them), running
    [CLCLWebSocketZlib_deflateInit2] ends exactly as the direct call of
    the platform's [deflateInit2] with the same arguments does: the same
    outcome, hence the same returned value, the same world afterwards and
    the same stream behind [strm]. *)
Theorem deflateInit2_wrapper_equals_direct_call
        (P : platform) (strm : z_streamp)
        (level method windowBits memLevel strategy : int) (w : world P) :
  run P (CLCLWebSocketZlib_deflateInit2
           strm level method windowBits memLevel strategy) w
  = direct_deflateInit2 P strm level method windowBits memLevel strategy w
  /\ return_value
       (run P (CLCLWebSocketZlib_deflateInit2
                 strm level method windowBits memLevel strategy) w)
     = return_value
         (direct_deflateInit2 P strm level method windowBits memLevel strategy w)
  /\ final_world
       (run P (CLCLWebSocketZlib_deflateInit2
                 strm level method windowBits memLevel strategy) w)
     = final_world
         (direct_deflateInit2 P strm level method windowBits memLevel strategy w)
  /\ stream_after P strm
       (run P (CLCLWebSocketZlib_deflateInit2
                 strm level method windowBits memLevel strategy) w)
     = stream_after P strm
         (direct_deflateInit2 P strm level method windowBits memLevel strategy w).
Proof.
  assert (Hrun :
    run P (CLCLWebSocketZlib_deflateInit2
             strm level method windowBits memLevel strategy) w
    = direct_deflateInit2 P strm level method windowBits memLevel strategy w).
  { unfold direct_deflateInit2. apply run_deflateInit2. }
  rewrite Hrun. repeat split.
Qed.

(** C2.  On every platform, in every world and for every argument pair,
    running [CLCLWebSocketZlib_inflateInit2] ends exactly as the direct
    call of the platform's [inflateInit2] with the same arguments does:
    the same outcome, hence the same returned value, the same world
    afterwards and the same stream behind [strm]. *)
Theorem inflateInit2_wrapper_equals_direct_call
        (P : platform) (strm : z_streamp) (windowBits : int) (w : world P) :
  run P (CLCLWebSocketZlib_inflateInit2 strm windowBits) w
  = direct_inflateInit2 P strm windowBits w
  /\ return_value (run P (CLCLWebSocketZlib_inflateInit2 strm windowBits) w)
     = return_value (direct_inflateInit2 P strm windowBits w)
  /\ final_world (run P (CLCLWebSocketZlib_inflateInit2 strm windowBits) w)
     = final_world (direct_inflateInit2 P strm windowBits w)
  /\ stream_after P strm
       (run P (CLCLWebSocketZlib_inflateInit2 strm windowBits) w)
     = stream_after P strm (direct_inflateInit2 P strm windowBits w).
Proof.
  assert (Hrun :
    run P (CLCLWebSocketZlib_inflateInit2 strm windowBits) w
    = direct_inflateInit2 P strm windowBits w).
  { unfold direct_inflateInit2. apply run_inflateInit2. }
  rewrite Hrun. repeat split.
Qed.

(** C3.  The value either wrapper returns is the status the forwarded
    call returned, whatever that status is: the wrapper ends with status
    [status] in world [w'] exactly when the forwarded call does, it
    crashes exactly when the forwarded call does, and in every case the
    forwarded call is the only thing it did (nothing runs after an error
    status). *)
Theorem status_codes_are_forwarded_verbatim
        (P : platform) (w : world P) (status : int) (w' : world P) :
  (forall (strm : z_streamp) (level method windowBits memLevel strategy : int),
      (run P (CLCLWebSocketZlib_deflateInit2
                strm level method windowBits memLevel strategy) w
       = Normal status w'
       <-> deflateInit2 P strm level method windowBits memLevel strategy w
           = Normal status w')
      /\ (run P (CLCLWebSocketZlib_deflateInit2
                   strm level method windowBits memLevel strategy) w
          = Fault
          <-> deflateInit2 P strm level method windowBits memLevel strategy w
              = Fault)
      /\ journal P (CLCLWebSocketZlib_deflateInit2
                      strm level method windowBits memLevel strategy) w
         = [(w, Ext_deflateInit2
                  strm level method windowBits memLevel strategy)])
  /\
  (forall (strm : z_streamp) (windowBits : int),
      (run P (CLCLWebSocketZlib_inflateInit2 strm windowBits) w
       = Normal status w'
       <-> inflateInit2 P strm windowBits w = Normal status w')
      /\ (run P (CLCLWebSocketZlib_inflateInit2 strm windowBits) w = Fault
          <-> inflateInit2 P strm windowBits w = Fault)
      /\ journal P (CLCLWebSocketZlib_inflateInit2 strm windowBits) w
         = [(w, Ext_inflateInit2 strm windowBits)]).
Proof.
  split; intros.
  - rewrite run_deflateInit2, journal_deflateInit2. repeat split; auto.
  - rewrite run_inflateInit2, journal_inflateInit2. repeat split; auto.
Qed.

(* ================================================================== *)
(** ** Parameters *)

Local Open Scope string_scope.

(** C4.  The deflate wrapper has six parameters: the stream handle, then
    five ints named level, method, windowBits, memLevel and strategy.
    Its body returns the call of [deflateInit2] on exactly these
    parameters in this order, and the one effect of the wrapper is that
    call, carrying the six argument values in the order received. *)
Theorem deflateInit2_wrapper_forwards_six_parameters :
  List.length (fn_params def_deflateInit2) = 6%nat
  /\ map fst (fn_params def_deflateInit2)
     = [Tpointer Tz_stream; Tint; Tint; Tint; Tint; Tint]
  /\ map snd (fn_params def_deflateInit2)
     = ["strm"; "level"; "method"; "windowBits"; "memLevel"; "strategy"]%string
  /\ shape (fn_body def_deflateInit2)
     = Forwards "deflateInit2" (parameters def_deflateInit2)
  /\ (forall (strm : z_streamp)
             (level method windowBits memLevel strategy : int),
         call_fundef def_deflateInit2
                     [Vptr (addr strm); Vint level; Vint method;
                      Vint windowBits; Vint memLevel; Vint strategy]
         = fmap Vint (CLCLWebSocketZlib_deflateInit2
                        strm level method windowBits memLevel strategy))
  /\ (forall (P : platform) (w : world P) (strm : z_streamp)
             (level method windowBits memLevel strategy : int),
         trace P (CLCLWebSocketZlib_deflateInit2
                    strm level method windowBits memLevel strategy) w
         = [Ext_deflateInit2 strm level method windowBits memLevel strategy]).
Proof.
  repeat split.
  - intros. apply call_def_deflateInit2.
  - intros. unfold trace. rewrite journal_deflateInit2. reflexivity.
Qed.

(** C5.  The inflate wrapper has two parameters: the stream handle and
    the int windowBits.  Its body returns the call of [inflateInit2] on
    exactly these two in this order, and the one effect of the wrapper is
    that call, carrying the two argument values in the order received. *)
Theorem inflateInit2_wrapper_forwards_two_parameters :
  List.length (fn_params def_inflateInit2) = 2%nat
  /\ map fst (fn_params def_inflateInit2) = [Tpointer Tz_stream; Tint]
  /\ map snd (fn_params def_inflateInit2) = ["strm"; "windowBits"]%string
  /\ shape (fn_body def_inflateInit2)
     = Forwards "inflateInit2" (parameters def_inflateInit2)
  /\ (forall (strm : z_streamp) (windowBits : int),
         call_fundef def_inflateInit2 [Vptr (addr strm); Vint windowBits]
         = fmap Vint (CLCLWebSocketZlib_inflateInit2 strm windowBits))
  /\ (forall (P : platform) (w : world P) (strm : z_streamp)
             (windowBits : int),
         trace P (CLCLWebSocketZlib_inflateInit2 strm windowBits) w
         = [Ext_inflateInit2 strm windowBits]).
Proof.
  repeat split.
  - intros. apply call_def_inflateInit2.
  - intros. unfold trace. rewrite journal_inflateInit2. reflexivity.
Qed.

(* ================================================================== *)
(** ** Nothing besides the forwarded call *)

(** C6.  On every platform, from every world and for every input: each
    wrapper issues one effect, the forwarded call, in the very world it
    was entered in and with its own arguments, and ends as that call
    ended; the cast helper issues no effect, leaves the world as it was
    and returns a pointer with the address it was given.  None of the
    three bodies holds a test, a memory access or a second statement. *)
Theorem shim_adds_nothing_to_the_forwarded_call
        (P : platform) (w : world P) :
  (forall (strm : z_streamp) (level method windowBits memLevel strategy : int),
      journal P (CLCLWebSocketZlib_deflateInit2
                   strm level method windowBits memLevel strategy) w
      = [(w, Ext_deflateInit2 strm level method windowBits memLevel strategy)]
      /\ run P (CLCLWebSocketZlib_deflateInit2
                  strm level method windowBits memLevel strategy) w
         = handle P (Ext_deflateInit2
                       strm level method windowBits memLevel strategy) w)
  /\ (forall (strm : z_streamp) (windowBits : int),
         journal P (CLCLWebSocketZlib_inflateInit2 strm windowBits) w
         = [(w, Ext_inflateInit2 strm windowBits)]
         /\ run P (CLCLWebSocketZlib_inflateInit2 strm windowBits) w
            = handle P (Ext_inflateInit2 strm windowBits) w)
  /\ (forall in_ : pointer Tvoid,
         journal P (CLCLWebSocketZlib_voidPtr_to_BytefPtr in_) w = []
         /\ run P (CLCLWebSocketZlib_voidPtr_to_BytefPtr in_) w
            = Normal (pointer_cast TBytef in_) w
         /\ addr (pointer_cast TBytef in_) = addr in_)
  /\ Forall (fun f => tests (fn_body f) = 0%nat
                      /\ memory_accesses (fn_body f) = 0%nat
                      /\ statements (fn_body f) = 1%nat)
            (functions header).
Proof.
  split; [ | split; [ | split]].
  - intros. split; [apply journal_deflateInit2 | apply run_deflateInit2].
  - intros. split; [apply journal_inflateInit2 | apply run_inflateInit2].
  - intros. repeat split.
  - repeat constructor.
Qed.

(* ================================================================== *)
(** ** The header as a whole *)

(** C7.  The header defines three functions and no object: the wrapper
    of [deflateInit2], the wrapper of [inflateInit2] and the cast helper,
    all three inline.  Each body is one statement: a return of the call of
    the zlib entry point on the function's parameters, or a return of the
    cast of the parameter.  Evaluated, the three definitions are the
    three functions of [Shim]. *)
Theorem header_is_three_one_statement_inline_functions :
  List.length header = 3%nat
  /\ functions header
     = [def_deflateInit2; def_inflateInit2; def_voidPtr_to_BytefPtr]
  /\ objects header = []
  /\ map fn_name (functions header)
     = ["CLCLWebSocketZlib_deflateInit2";
        "CLCLWebSocketZlib_inflateInit2";
        "CLCLWebSocketZlib_voidPtr_to_BytefPtr"]%string
  /\ forallb is_inline (functions header) = true
  /\ Forall (fun f => statements (fn_body f) = 1%nat) (functions header)
  /\ shape (fn_body def_deflateInit2)
     = Forwards "deflateInit2" (parameters def_deflateInit2)
  /\ shape (fn_body def_inflateInit2)
     = Forwards "inflateInit2" (parameters def_inflateInit2)
  /\ shape (fn_body def_voidPtr_to_BytefPtr)
     = Casts (fn_return def_voidPtr_to_BytefPtr) (Evar "in")
  /\ parameters def_voidPtr_to_BytefPtr = [Evar "in"]
  /\ (forall (strm : z_streamp)
             (level method windowBits memLevel strategy : int),
         call_fundef def_deflateInit2
                     [Vptr (addr strm); Vint level; Vint method;
                      Vint windowBits; Vint memLevel; Vint strategy]
         = fmap Vint (CLCLWebSocketZlib_deflateInit2
                        strm level method windowBits memLevel strategy))
  /\ (forall (strm : z_streamp) (windowBits : int),
         call_fundef def_inflateInit2 [Vptr (addr strm); Vint windowBits]
         = fmap Vint (CLCLWebSocketZlib_inflateInit2 strm windowBits))
  /\ (forall in_ : pointer Tvoid,
         call_fundef def_voidPtr_to_BytefPtr [Vptr (addr in_)]
         = fmap (fun q => Vptr (addr q))
                (CLCLWebSocketZlib_voidPtr_to_BytefPtr in_)).
Proof.
  repeat match goal with |- _ /\ _ => split end;
    try reflexivity.
  - repeat constructor.
  - intros. apply call_def_deflateInit2.
  - intros. apply call_def_inflateInit2.
Qed.

(* ================================================================== *)
(** ** The cast helper *)

(** C8.  For every pointer [in_], the null pointer included,
    [CLCLWebSocketZlib_voidPtr_to_BytefPtr] returns a [Bytef *] with the
    address of [in_]; cast back to [void *], the result is [in_]. *)
Theorem voidPtr_to_BytefPtr_keeps_the_address (in_ : pointer Tvoid) :
  fmap addr (CLCLWebSocketZlib_voidPtr_to_BytefPtr in_) = Ret (addr in_)
  /\ fmap BytefPtr_to_voidPtr (CLCLWebSocketZlib_voidPtr_to_BytefPtr in_)
     = Ret in_
  /\ CLCLWebSocketZlib_voidPtr_to_BytefPtr (Pointer NULL)
     = Ret (Pointer NULL)
  /\ (forall (P : platform) (w : world P),
         exists q : pointer TBytef,
           run P (CLCLWebSocketZlib_voidPtr_to_BytefPtr in_) w = Normal q w
           /\ addr q = addr in_
           /\ BytefPtr_to_voidPtr q = in_).
Proof.
  destruct in_ as [a].
  repeat split.
  intros P w. exists (Pointer a). repeat split.
Qed.

(** C9.  For every pointer [in_] (null or dangling alike), on every
    platform and from every world, [CLCLWebSocketZlib_voidPtr_to_BytefPtr]
    returns normally, leaves the world as it was, and issues no load, no
    store and no call; so it does when it is run from the text of the
    header. *)
Theorem voidPtr_to_BytefPtr_total_and_pure
        (P : platform) (w : world P) (in_ : pointer Tvoid) :
  run P (CLCLWebSocketZlib_voidPtr_to_BytefPtr in_) w
  = Normal (pointer_cast TBytef in_) w
  /\ journal P (CLCLWebSocketZlib_voidPtr_to_BytefPtr in_) w = []
  /\ effect_free (CLCLWebSocketZlib_voidPtr_to_BytefPtr in_) = true
  /\ memory_accesses (fn_body def_voidPtr_to_BytefPtr) = 0%nat
  /\ run P (call_fundef def_voidPtr_to_BytefPtr [Vptr (addr in_)]) w
     = Normal (Vptr (addr in_)) w
  /\ journal P (call_fundef def_voidPtr_to_BytefPtr [Vptr (addr in_)]) w = [].
Proof.
  repeat split.
Qed.

(* ================================================================== *)
(** ** Determinism *)

(** C10.  On a platform that answers each call in at most one way, each
    of the three functions, entered twice with the same arguments in the
    same world, ends the same way both times.  On any platform, also one
    with several possible answers, the possible outcomes of a wrapper are
    the possible outcomes of the forwarded call and no others, and the
    cast helper has the one outcome fixed by its argument. *)
Theorem shim_functions_are_deterministic
        (R : rplatform) (Hdet : deterministic R) :
  (forall (strm : z_streamp) (level method windowBits memLevel strategy : int)
          (w : rworld R) (o1 o2 : outcome (rworld R) int),
      exec R (CLCLWebSocketZlib_deflateInit2
                strm level method windowBits memLevel strategy) w o1 ->
      exec R (CLCLWebSocketZlib_deflateInit2
                strm level method windowBits memLevel strategy) w o2 ->
      o1 = o2)
  /\ (forall (strm : z_streamp) (windowBits : int)
             (w : rworld R) (o1 o2 : outcome (rworld R) int),
         exec R (CLCLWebSocketZlib_inflateInit2 strm windowBits) w o1 ->
         exec R (CLCLWebSocketZlib_inflateInit2 strm windowBits) w o2 ->
         o1 = o2)
  /\ (forall (in_ : pointer Tvoid)
             (w : rworld R) (o1 o2 : outcome (rworld R) (pointer TBytef)),
         exec R (CLCLWebSocketZlib_voidPtr_to_BytefPtr in_) w o1 ->
         exec R (CLCLWebSocketZlib_voidPtr_to_BytefPtr in_) w o2 ->
         o1 = o2)
  /\ (forall (strm : z_streamp) (level method windowBits memLevel strategy : int)
             (w : rworld R) (o : outcome (rworld R) int),
         exec R (CLCLWebSocketZlib_deflateInit2
                   strm level method windowBits memLevel strategy) w o
         <-> r_deflateInit2 R strm level method windowBits memLevel strategy
                            w o)
  /\ (forall (strm : z_streamp) (windowBits : int)
             (w : rworld R) (o : outcome (rworld R) int),
         exec R (CLCLWebSocketZlib_inflateInit2 strm windowBits) w o
         <-> r_inflateInit2 R strm windowBits w o)
  /\ (forall (in_ : pointer Tvoid)
             (w : rworld R) (o : outcome (rworld R) (pointer TBytef)),
         exec R (CLCLWebSocketZlib_voidPtr_to_BytefPtr in_) w o
         <-> o = Normal (pointer_cast TBytef in_) w).
Proof.
  repeat match goal with |- _ /\ _ => split end.
  - intros *. apply exec_deterministic. exact Hdet.
  - intros *. apply exec_deterministic. exact Hdet.
  - intros *. apply exec_deterministic. exact Hdet.
  - intros *.
    exact (exec_perform R (Ext_deflateInit2 strm level method windowBits
                                            memLevel strategy) w o).
  - intros *. exact (exec_perform R (Ext_inflateInit2 strm windowBits) w o).
  - intros *. simpl. tauto.
Qed.

(** The sample platform answers in one way; whatever way
    [CLCLWebSocketZlib_deflateInit2] can end there is the one way it
    runs. *)
Lemma shim_functions_are_deterministic_on_sample :
  deterministic (graph sample)
  /\ forall o : outcome sample_world int,
       exec (graph sample)
            (CLCLWebSocketZlib_deflateInit2 (Pointer 64%N) 6 8 (-15) 8 0)
            [] o ->
       o = Normal 0 [(64%N, Deflating 6 8 (-15) 8 0)].
Proof.
  assert (Hdet : deterministic (graph sample)).
  { intros e w o1 o2 H1 H2. destruct e; simpl in H1, H2; congruence. }
  split; [exact Hdet | ].
  intros o Ho.
  apply (proj1 (shim_functions_are_deterministic (graph sample) Hdet)
               (Pointer 64%N) 6 8 (-15) 8 0 [] o
               (Normal 0 [(64%N, Deflating 6 8 (-15) 8 0)]) Ho).
  simpl. right. exists 0, [(64%N, Deflating 6 8 (-15) 8 0)].
  split; reflexivity.
Defined.

(* ================================================================== *)
(** ** The header in use *)

(** X1.  Whatever a caller does with the three functions (any number of
    calls, in any order, each depending on earlier results, mixed with
    memory accesses and zlib calls of its own), compiled against the
    header it ends as it would have ended calling zlib directly and
    writing the cast in place, and it has had the same effects in the
    same worlds; on a platform with several possible answers it has the
    same possible outcomes. *)
Theorem shim_is_transparent_to_every_caller {A : Type} (c : client A) :
  (forall (P : platform) (w : world P),
      run P (through_shim c) w = run P (without_shim c) w
      /\ journal P (through_shim c) w = journal P (without_shim c) w)
  /\ (forall (R : rplatform) (w : rworld R) (o : outcome (rworld R) A),
         exec R (through_shim c) w o <-> exec R (without_shim c) w o).
Proof.
  split.
  - intros P.
    induction c as [a | | e k IH
                    | strm level method windowBits memLevel strategy k IH
                    | strm windowBits k IH
                    | in_ k IH]; intros w; simpl.
    + split; reflexivity.
    + split; reflexivity.
    + destruct (handle P e w) as [x w' | ].
      * destruct (IH x w') as [Hrun Hjournal]. rewrite Hjournal. auto.
      * split; reflexivity.
    + destruct (deflateInit2 P strm level method windowBits memLevel strategy w)
        as [x w' | ].
      * destruct (IH x w') as [Hrun Hjournal]. rewrite Hjournal. auto.
      * split; reflexivity.
    + destruct (inflateInit2 P strm windowBits w) as [x w' | ].
      * destruct (IH x w') as [Hrun Hjournal]. rewrite Hjournal. auto.
      * split; reflexivity.
    + apply IH.
  - intros R.
    induction c as [a | | e k IH
                    | strm level method windowBits memLevel strategy k IH
                    | strm windowBits k IH
                    | in_ k IH]; intros w o; simpl.
    + tauto.
    + tauto.
    + split; (intros [Hfault | (x & w' & Hnormal & Hrest)];
              [left; exact Hfault
              | right; exists x, w'; split; [exact Hnormal | apply IH; exact Hrest]]).
    + split; (intros [Hfault | (x & w' & Hnormal & Hrest)];
              [left; exact Hfault
              | right; exists x, w'; split; [exact Hnormal | apply IH; exact Hrest]]).
    + split; (intros [Hfault | (x & w' & Hnormal & Hrest)];
              [left; exact Hfault
              | right; exists x, w'; split; [exact Hnormal | apply IH; exact Hrest]]).
    + apply IH.
Qed.


Example sample_init_both_through_shim :
  run sample (through_shim (init_both (Pointer 64%N) (Pointer 128%N)
                                      6 8 (-15) 8 0)) []
  = Normal 0 [(128%N, Inflating (-15)); (64%N, Deflating 6 8 (-15) 8 0)]
  /\ run sample (through_shim (init_both (Pointer NULL) (Pointer 128%N)
                                         6 8 (-15) 8 0)) []
     = Normal (-2) []
  /\ trace sample (through_shim (init_both (Pointer NULL) (Pointer 128%N)
                                           6 8 (-15) 8 0)) []
     = [Ext_deflateInit2 (Pointer NULL) 6 8 (-15) 8 0].
Proof. repeat split; reflexivity. Qed.

(** X2.  [CLCLWebSocketZlib_voidPtr_to_BytefPtr] is one-to-one and onto:
    two pointers with the same result are the same pointer, every
    [Bytef *] is the result for its own cast to [void *], and the result
    is null exactly when the argument is. *)
Theorem voidPtr_to_BytefPtr_is_one_to_one_and_onto :
  (forall p p' : pointer Tvoid,
      CLCLWebSocketZlib_voidPtr_to_BytefPtr p
      = CLCLWebSocketZlib_voidPtr_to_BytefPtr p' ->
      p = p')
  /\ (forall q : pointer TBytef,
         CLCLWebSocketZlib_voidPtr_to_BytefPtr (BytefPtr_to_voidPtr q) = Ret q)
  /\ (forall p : pointer Tvoid,
         exists q : pointer TBytef,
           CLCLWebSocketZlib_voidPtr_to_BytefPtr p = Ret q
           /\ (addr q = NULL <-> addr p = NULL)).
Proof.
  split; [ | split].
  - intros [a] [a'] Heq.
    unfold CLCLWebSocketZlib_voidPtr_to_BytefPtr, pointer_cast in Heq.
    simpl in Heq. congruence.
  - intros [a]. reflexivity.
  - intros p. exists (pointer_cast TBytef p). split; [reflexivity | ].
    simpl. tauto.
Qed.

(** On every platform, a load or a store through the pointer
    [CLCLWebSocketZlib_voidPtr_to_BytefPtr] returned is the load or the
    store at the address that was passed in: same outcome, and the one
    memory access recorded is at that address. *)
Theorem access_through_the_cast_pointer_is_access_at_the_argument
        (P : platform) (w : world P) (in_ : pointer Tvoid) :
  run P (bind (CLCLWebSocketZlib_voidPtr_to_BytefPtr in_)
              (fun q => perform (Mem_load (addr q)) : prog Byte.byte)) w
  = mem_load P (addr in_) w
  /\ journal P (bind (CLCLWebSocketZlib_voidPtr_to_BytefPtr in_)
                     (fun q => perform (Mem_load (addr q)) : prog Byte.byte)) w
     = [(w, Mem_load (addr in_))]
  /\ (forall b : Byte.byte,
         run P (bind (CLCLWebSocketZlib_voidPtr_to_BytefPtr in_)
                     (fun q => perform (Mem_store (addr q) b) : prog unit)) w
         = mem_store P (addr in_) b w
         /\ journal P (bind (CLCLWebSocketZlib_voidPtr_to_BytefPtr in_)
                            (fun q => perform (Mem_store (addr q) b)
                                      : prog unit)) w
            = [(w, Mem_store (addr in_) b)]).
Proof.
  split; [ | split].
  - exact (run_perform P (Mem_load (addr in_)) w).
  - exact (journal_perform P (Mem_load (addr in_)) w).
  - intros b. split.
    + exact (run_perform P (Mem_store (addr in_) b) w).
    + exact (journal_perform P (Mem_store (addr in_) b) w).
Qed.
